(** * Gatekeeper: the visitor registry behind the HTTP surface

    A shallow embedding of [gatekeeper-advanced.go]: the four gin handlers
    ([getVisitors], [addVisitor], [removeVisitor] and the ping route), the
    registry functions they call ([getVisitorsFromDB], [addNewVisitorToDB],
    [checkPlateAlreadyInDB]) and the statements they send to the database,
    and of the console functions around [scanPlate].

    The Go code is effectful: it opens a connection per operation, sends SQL
    text, may stop the process ([log.Fatalf]) and may dereference a nil
    cursor.  These effects are threaded through a small state monad whose
    state is the [world]: the rows of the [visitors] table, the failures the
    database is going to produce, and a journal of what was sent to it. *)

From Stdlib Require Import String Ascii List Bool Arith Lia.
Import ListNotations.
Open Scope string_scope.
Open Scope list_scope.
Open Scope nat_scope.

(** ** Data *)

(** [type visitors struct { Name string; Plate string }] *)
Record visitors : Type := Build_visitors { Name : string; Plate : string }.

(** A Go slice of visitors: [None] is the nil slice, [Some l] an allocated
    one.  [getVisitors] tells the two apart with [results == nil]. *)
Definition slice : Type := option (list visitors).

Definition items (s : slice) : list visitors :=
  match s with
  | None => []
  | Some l => l
  end.

Definition len (s : slice) : nat := length (items s).

(** [append(s, v)]: always an allocated slice. *)
Definition append (s : slice) (v : visitors) : slice := Some (items s ++ [v]).

(** ** HTTP responses *)

Definition StatusOK : nat := 200.
Definition StatusCreated : nat := 201.
Definition StatusBadRequest : nat := 400.
Definition StatusNotFound : nat := 404.
Definition StatusConflict : nat := 409.
Definition StatusInternalServerError : nat := 500.

(** What [c.JSON] is given as its second argument. *)
Inductive payload : Type :=
| H_message (m : string)            (* gin.H{"message": m} *)
| VisitorArray (l : list visitors)  (* a non-nil []visitors *)
| VisitorObject (v : visitors)      (* one visitors struct *)
| NoBody.                           (* status only *)

Record response : Type := JSON { status : nat; body : payload }.

(** A status of 400 and above reports an error to the caller. *)
Definition is_error (r : response) : bool := 400 <=? status r.

(** ** The world *)

Inductive event : Type :=
| Opened                                      (* initializeDB was called *)
| Sent (text : string) (args : list string).  (* db.Query(text, args...) *)

Record world : Type := World {
  table : list visitors;   (* rows of visitors(name, plate), in storage order *)
  faults : list bool;      (* one entry per database call to come; true: it fails *)
  journal : list event     (* the database calls made so far, oldest first *)
}.

(** How a piece of Go code ends: it returns, it panics (a nil pointer is
    dereferenced), or it stops the process ([log.Fatalf]). *)
Inductive outcome (A : Type) : Type :=
| Returned (a : A) (w : world)
| Panicked (w : world)
| Exited (w : world).
Arguments Returned {A} a w.
Arguments Panicked {A} w.
Arguments Exited {A} w.

Definition world_of {A : Type} (o : outcome A) : world :=
  match o with
  | Returned _ w => w
  | Panicked w => w
  | Exited w => w
  end.

Definition M (A : Type) : Type := world -> outcome A.

Definition ret {A : Type} (a : A) : M A := fun w => Returned a w.

Definition bind {A B : Type} (m : M A) (k : A -> M B) : M B :=
  fun w =>
    match m w with
    | Returned a w' => k a w'
    | Panicked w' => Panicked w'
    | Exited w' => Exited w'
    end.

Notation "x <- m ;; k" := (bind m (fun x => k))
  (at level 61, m at next level, right associativity).
Notation "m ;;; k" := (bind m (fun _ => k))
  (at level 61, right associativity).

(** [log.Fatalf]: the process exits, nothing after it runs. *)
Definition Fatalf {A : Type} : M A := fun w => Exited w.

(** A nil pointer dereference. *)
Definition nil_dereference {A : Type} : M A := fun w => Panicked w.

(** ** The statements *)

Definition NL : string := String "010" EmptyString.
Definition TAB : string := String "009" EmptyString.

(** getVisitorsFromDB, no plate given. *)
Definition select_all_text : string :=
  ("SELECT name, plate" ++ NL ++ TAB ++ TAB ++ TAB ++ "FROM visitors")%string.

(** getVisitorsFromDB, plate bound to the placeholder. *)
Definition select_bound_text : string :=
  ("SELECT name, plate" ++ NL ++ TAB ++ TAB ++ TAB ++ "FROM visitors"
    ++ NL ++ TAB ++ TAB ++ TAB ++ "WHERE plate = ?")%string.

(** addNewVisitorToDB, name and plate bound to the placeholders. *)
Definition insert_bound_text : string :=
  ("INSERT INTO visitors (name, plate)" ++ NL ++ TAB ++ TAB ++ "VALUES (?, ?)")%string.

(** checkPlateAlreadyInDB: the text in front of the spliced plate. *)
Definition select_splice_prefix : string :=
  ("SELECT name, plate" ++ NL ++ TAB ++ TAB ++ "FROM visitors"
    ++ NL ++ TAB ++ TAB ++ "WHERE plate " ++ " = '")%string.

(** removeVisitor: the text in front of the spliced plate. *)
Definition delete_splice_prefix : string :=
  ("DELETE FROM visitors" ++ NL ++ TAB ++ TAB ++ "WHERE plate = '")%string.

(** [... WHERE plate ` + " = '" + givenPlate + "'"] *)
Definition select_spliced (givenPlate : string) : string :=
  (select_splice_prefix ++ givenPlate ++ "'")%string.

(** [`DELETE FROM visitors WHERE plate = '` + plate + `'`] *)
Definition delete_spliced (plate : string) : string :=
  (delete_splice_prefix ++ plate ++ "'")%string.

(** ** The database engine *)

(** How the engine reads the text that follows an opening quote. *)
Inductive reading : Type :=
| Denotes (s : string)   (* one complete literal, and nothing after it *)
| Unterminated           (* the text ends inside the literal *)
| Foreign.               (* the literal ends early, or uses a backslash *)

Definition prepend (c : ascii) (r : reading) : reading :=
  match r with
  | Denotes s => Denotes (String c s)
  | Unterminated => Unterminated
  | Foreign => Foreign
  end.

(** A quote closes the literal unless it is doubled; a doubled quote stands
    for one quote character.  A backslash is an escape in some dialects and
    an ordinary character in others, so it is left to the dialect. *)
Fixpoint read_literal (text : string) : reading :=
  match text with
  | EmptyString => Unterminated
  | String c rest =>
      if (c =? "'")%char then
        match rest with
        | EmptyString => Denotes EmptyString
        | String c' rest' =>
            if (c' =? "'")%char then prepend "'" (read_literal rest')
            else Foreign
        end
      else if (c =? "\")%char then Foreign
      else prepend c (read_literal rest)
  end.

(** A plate that can be spliced between quotes and still be read back as
    itself: it holds no quote and no backslash. *)
Fixpoint sql_plain (p : string) : bool :=
  match p with
  | EmptyString => true
  | String c rest =>
      negb (c =? "'")%char && negb (c =? "\")%char && sql_plain rest
  end.

Fixpoint strip_prefix (pre s : string) : option string :=
  match pre with
  | EmptyString => Some s
  | String a pre' =>
      match s with
      | EmptyString => None
      | String b s' => if (a =? b)%char then strip_prefix pre' s' else None
      end
  end.

(** What an engine does with a statement whose spliced text is [Foreign]:
    the statement is no longer the one the code meant to send.  A statement
    that starts with SELECT can only answer rows (or be refused); one that
    starts with DELETE can only leave another table behind (or be
    refused).  [db.Query] sends one statement per call. *)
Record dialect : Type := Dialect {
  foreign_select : string -> list visitors -> option (list visitors);
  foreign_delete : string -> list visitors -> option (list visitors)
}.

(** The dialect that refuses every foreign statement. *)
Definition strict : dialect :=
  {| foreign_select := fun _ _ => None; foreign_delete := fun _ _ => None |}.

Inductive reply : Type :=
| Refused                                            (* db.Query returns an error *)
| Answered (rows : list visitors) (t' : list visitors).  (* the cursor, the table afterwards *)

(** [WHERE plate = s] *)
Definition plate_is (s : string) (r : visitors) : bool := (Plate r =? s)%string.

(** Modelled from the spec: the relational engine is an external service
    with one table [visitors(name TEXT, plate TEXT)]; a WHERE clause on the
    plate selects the rows whose plate matches exactly, an INSERT adds a
    row, a DELETE removes the rows its WHERE clause selects.  Only the five
    statements of the HTTP surface are known to it. *)
Definition execute (E : dialect) (text : string) (args : list string)
    (t : list visitors) : reply :=
  if (text =? select_all_text)%string then
    match args with
    | [] => Answered t t
    | _ => Refused
    end
  else if (text =? select_bound_text)%string then
    match args with
    | [p] => Answered (filter (plate_is p) t) t
    | _ => Refused
    end
  else if (text =? insert_bound_text)%string then
    match args with
    | [n; p] => Answered [] (t ++ [Build_visitors n p])
    | _ => Refused
    end
  else
    match strip_prefix select_splice_prefix text with
    | Some quoted =>
        match read_literal quoted with
        | Denotes s => Answered (filter (plate_is s) t) t
        | Unterminated => Refused
        | Foreign =>
            match foreign_select E text t with
            | Some rows => Answered rows t
            | None => Refused
            end
        end
    | None =>
        match strip_prefix delete_splice_prefix text with
        | Some quoted =>
            match read_literal quoted with
            | Denotes s => Answered [] (filter (fun r => negb (plate_is s r)) t)
            | Unterminated => Refused
            | Foreign =>
                match foreign_delete E text t with
                | Some t' => Answered [] t'
                | None => Refused
                end
            end
        | None => Refused
        end
    end.

(** ** The database gateway *)

(** [*sql.DB] *)
Inductive DB : Type := Handle.

Definition record (e : event) (w : world) : list event := journal w ++ [e].

(** Modelled from the spec: the body of [initializeDB] kept in the source
    file is a placeholder that returns no handle; the gateway of the spec,
    [connect(config) -> Connection | Error], stands in for it.  [None] is a
    non-nil [err]. *)
Definition initializeDB : M (option DB) :=
  fun w =>
    match faults w with
    | true :: fs => Returned None (World (table w) fs (record Opened w))
    | _ => Returned (Some Handle) (World (table w) (tl (faults w)) (record Opened w))
    end.

(** [db.Query(text, args...)]: [Some rows] is a cursor with a nil error,
    [None] is a nil cursor with a non-nil error.  A failed call leaves the
    table as it was. *)
Definition Query (E : dialect) (db : DB) (text : string) (args : list string)
    : M (option (list visitors)) :=
  fun w =>
    let j := record (Sent text args) w in
    match faults w with
    | true :: fs => Returned None (World (table w) fs j)
    | _ =>
        match execute E text args (table w) with
        | Refused => Returned None (World (table w) (tl (faults w)) j)
        | Answered rows t' => Returned (Some rows) (World t' (tl (faults w)) j)
        end
    end.

(** ** The visitor registry *)

(** The loop of [getVisitorsFromDB] over the cursor. *)
Fixpoint scan_visitors (rows : list visitors) (visitorList : slice) : slice :=
  match rows with
  | [] => visitorList
  | r :: rest =>
      let visitor := Build_visitors (Name r) (Plate r) in
      let visitorList := append visitorList visitor in
      if len visitorList =? 0 then None
      else scan_visitors rest visitorList
  end.

Definition getVisitorsFromDB (E : dialect) (EnteredPlate : string) : M slice :=
  conn <- initializeDB ;;
  match conn with
  | None => Fatalf
  | Some db =>
      rows <- (if (EnteredPlate =? "")%string
               then Query E db select_all_text []
               else Query E db select_bound_text [EnteredPlate]) ;;
      match rows with
      | None => nil_dereference            (* rows.Next() on a nil cursor *)
      | Some rs => ret (scan_visitors rs None)
      end
  end.

(** The loop of [checkPlateAlreadyInDB] over the cursor. *)
Fixpoint scan_plate (givenPlate : string) (rows : list visitors) : bool :=
  match rows with
  | [] => false
  | r :: rest =>
      if (Plate r =? givenPlate)%string then true
      else scan_plate givenPlate rest
  end.

Definition checkPlateAlreadyInDB (E : dialect) (db : DB) (givenPlate : string)
    : M bool :=
  rows <- Query E db (select_spliced givenPlate) [] ;;
  match rows with
  | None => nil_dereference              (* rows.Next() on a nil cursor *)
  | Some rs => ret (scan_plate givenPlate rs)
  end.

Definition addNewVisitorToDB (E : dialect) (visitor : visitors) : M unit :=
  conn <- initializeDB ;;
  match conn with
  | None => Fatalf
  | Some db =>
      rows <- Query E db insert_bound_text [Name visitor; Plate visitor] ;;
      match rows with
      | None => Fatalf
      | Some _ => ret tt
      end
  end.

(** ** The HTTP surface *)

(** A handler ends with the response it wrote with [c.JSON], or with [None]
    when it returned without writing one. *)
Definition handler : Type := M (option response).

Definition reply_with (code : nat) (b : payload) : handler :=
  ret (Some (JSON code b)).

Definition getVisitors (E : dialect) (plate : string) : handler :=
  results <- getVisitorsFromDB E plate ;;
  match results with
  | None => reply_with StatusNotFound (H_message "Plate is not found in the database")
  | Some l => reply_with StatusOK (VisitorArray l)
  end.

(** [bound] is what [c.BindJSON(&newVisitor)] made of the request body:
    [None] when it returned an error. *)
Definition addVisitor (E : dialect) (bound : option visitors) : handler :=
  match bound with
  | None => ret None
  | Some newVisitor =>
      if ((Name newVisitor =? "") || (Plate newVisitor =? ""))%string then
        reply_with StatusBadRequest (H_message "Name and plate are required")
      else
        conn <- initializeDB ;;
        match conn with
        | None => Fatalf
        | Some db =>
            let err : bool := false in   (* err is nil from here on *)
            found <- checkPlateAlreadyInDB E db (Plate newVisitor) ;;
            if found then
              reply_with StatusConflict (H_message "Plate already in database")
            else
              addNewVisitorToDB E newVisitor ;;;
              if err then
                reply_with StatusInternalServerError (H_message "Internal server error")
              else
                reply_with StatusCreated (VisitorObject newVisitor)
        end
  end.

Definition removeVisitor (E : dialect) (plate : string) : handler :=
  conn <- initializeDB ;;
  match conn with
  | None => Fatalf
  | Some db =>
      found <- checkPlateAlreadyInDB E db plate ;;
      if negb found then
        reply_with StatusConflict (H_message "Plate is not found in the database")
      else
        rows <- Query E db (delete_spliced plate) [] ;;
        match rows with
        | None => reply_with StatusInternalServerError (H_message "Internal server error")
        | Some _ => reply_with StatusOK (H_message "Plate removed")
        end
  end.

(** The routes registered in [main]. *)
Inductive request : Type :=
| GET_visitors
| GET_visitors_plate (plate : string)
| POST_visitors (bound : option visitors)
| DELETE_visitors_plate (plate : string)
| GET_ping.

(** [c.Param("plate")] is the empty string on the route without the
    parameter. *)
Definition route (E : dialect) (req : request) : handler :=
  match req with
  | GET_visitors => getVisitors E ""
  | GET_visitors_plate plate => getVisitors E plate
  | POST_visitors bound => addVisitor E bound
  | DELETE_visitors_plate plate => removeVisitor E plate
  | GET_ping => reply_with StatusOK (H_message "pong")
  end.

(** [gin.Default()] installs the recovery middleware: a panic in a handler
    is answered with status 500.  A process that exited answers nothing. *)
Definition serve (E : dialect) (req : request) : handler :=
  fun w =>
    match route E req w with
    | Panicked w' => Returned (Some (JSON StatusInternalServerError NoBody)) w'
    | o => o
    end.

(** A world whose database is going to answer every call. *)
Definition calm (t : list visitors) : world := World t [] [].

(** ** The console functions

    [scanPlate] and the functions it calls are kept in the source file but
    are not called from [main].  They send statements of their own. *)

(** checkScannedPlateInDB: the text in front of the spliced plate (the first
    line ends in a space). *)
Definition scan_splice_prefix : string :=
  ("SELECT name, plate " ++ NL ++ TAB ++ TAB ++ "FROM visitors"
    ++ NL ++ TAB ++ TAB ++ "WHERE plate " ++ " = '")%string.

(** getLinkedNameOfPlate: the text in front of the spliced plate. *)
Definition linked_splice_prefix : string :=
  ("SELECT name, plate" ++ NL ++ TAB ++ TAB ++ "FROM visitors"
    ++ NL ++ TAB ++ TAB ++ "WHERE plate = '")%string.

Definition scan_spliced (givenPlate : string) : string :=
  (scan_splice_prefix ++ givenPlate ++ "'")%string.

Definition linked_spliced (plate : string) : string :=
  (linked_splice_prefix ++ plate ++ "'")%string.

(** A SELECT whose WHERE clause compares the plate with the quoted text. *)
Definition select_quoted (E : dialect) (text quoted : string) (t : list visitors)
    : reply :=
  match read_literal quoted with
  | Denotes s => Answered (filter (plate_is s) t) t
  | Unterminated => Refused
  | Foreign =>
      match foreign_select E text t with
      | Some rows => Answered rows t
      | None => Refused
      end
  end.

(** Modelled from the spec: the same engine, which also knows the two
    SELECT statements of the console functions; every other statement is
    handled as by [execute]. *)
Definition execute_console (E : dialect) (text : string) (args : list string)
    (t : list visitors) : reply :=
  match strip_prefix scan_splice_prefix text with
  | Some quoted => select_quoted E text quoted t
  | None =>
      match strip_prefix linked_splice_prefix text with
      | Some quoted => select_quoted E text quoted t
      | None => execute E text args t
      end
  end.

(** [db.Query] as the console functions see it. *)
Definition Query_console (E : dialect) (db : DB) (text : string) (args : list string)
    : M (option (list visitors)) :=
  fun w =>
    let j := record (Sent text args) w in
    match faults w with
    | true :: fs => Returned None (World (table w) fs j)
    | _ =>
        match execute_console E text args (table w) with
        | Refused => Returned None (World (table w) (tl (faults w)) j)
        | Answered rows t' => Returned (Some rows) (World t' (tl (faults w)) j)
        end
    end.

Definition checkScannedPlateInDB (E : dialect) (db : DB) (givenPlate : string)
    : M bool :=
  rows <- Query_console E db (scan_spliced givenPlate) [] ;;
  match rows with
  | None => nil_dereference              (* rows.Next() on a nil cursor *)
  | Some rs => ret (scan_plate givenPlate rs)
  end.

(** The loop of [getLinkedNameOfPlate]: every row overwrites [name]. *)
Fixpoint scan_name (rows : list visitors) (name : string) : string :=
  match rows with
  | [] => name
  | r :: rest => scan_name rest (Name r)
  end.

Definition getLinkedNameOfPlate (E : dialect) (plate : string) : M string :=
  conn <- initializeDB ;;
  match conn with
  | None => Fatalf
  | Some db =>
      rows <- Query_console E db (linked_spliced plate) [] ;;
      match rows with
      | None => nil_dereference          (* rows.Next() on a nil cursor *)
      | Some rs => ret (scan_name rs "")
      end
  end.

(** What a console function writes.  [init] sets the output of the logger
    to standard output and the file [trace.log] together, so a log line is
    seen on standard output too; the logger puts the date and the time in
    front of it. *)
Inductive output : Type :=
| Stdout_text (s : string)   (* written with fmt.Print: no line break *)
| Stdout_line (s : string)   (* written with fmt.Println *)
| Stderr_line (s : string)   (* written with the builtin println *)
| Log_line (s : string)      (* written with log.Printf or log.Println *)
| Log_fatal (s : string).    (* written with log.Fatalf: the text in front of the error *)

(** A console function: what it wrote, and how it ended. *)
Definition P (A : Type) : Type := world -> list output * outcome A.

Definition write (o : output) : P unit := fun w => ([o], Returned tt w).

Definition quiet {A : Type} (m : M A) : P A := fun w => ([], m w).

Definition pbind {A B : Type} (m : P A) (k : A -> P B) : P B :=
  fun w =>
    match m w with
    | (o1, Returned a w') => let (o2, r) := k a w' in (o1 ++ o2, r)
    | (o1, Panicked w') => (o1, Panicked w')
    | (o1, Exited w') => (o1, Exited w')
    end.

Notation "x <~ m ;; k" := (pbind m (fun x => k))
  (at level 61, m at next level, right associativity).
Notation "m ;;~ k" := (pbind m (fun _ => k))
  (at level 61, right associativity).

Definition welcomeMessage (n : string) : P unit :=
  write (Stderr_line (n ++ " Welkom bij Fonteyn Vakantieparken")%string).

(** The bytes between [is ] and [s nachts] in the source text. *)
Definition apostrophe_bytes : string :=
  String "195" (String "162" (String "226" (String "130" (String "172"
    (String "226" (String "132" (String "162" EmptyString))))))).

Definition closed_message : string :=
  ("Sorry, de parkeerplaats is " ++ apostrophe_bytes ++ "s nachts gesloten")%string.

(** [hour] is [time.Now().Hour()]. *)
Definition firstMessage (hour : nat) : P unit :=
  if (7 <=? hour) && (hour <? 12) then welcomeMessage "Goedemorgen!"
  else if (12 <=? hour) && (hour <? 18) then welcomeMessage "Goedemiddag!"
  else if (18 <=? hour) && (hour <? 23) then welcomeMessage "Goedenavond!"
  else write (Stdout_line closed_message).

(** [debug(s)]: a log line when [config.Global.Debug] is set. *)
Definition debug (Debug : bool) (s : string) : P unit :=
  if Debug then write (Log_line ("DEBUG: " ++ s)%string)
  else quiet (ret tt).

(** The loop of [checkScannedPlateInDB] with the line it logs for every
    row it looks at. *)
Fixpoint scan_plate_logged (Debug : bool) (givenPlate : string)
    (rows : list visitors) : P bool :=
  match rows with
  | [] => quiet (ret false)
  | r :: rest =>
      debug Debug ("Returned data from query: " ++ Name r ++ " " ++ Plate r)%string ;;~
      if (Plate r =? givenPlate)%string then quiet (ret true)
      else scan_plate_logged Debug givenPlate rest
  end.

(** [checkScannedPlateInDB] together with what it logs. *)
Definition checkScannedPlateInDB_logged (Debug : bool) (E : dialect) (db : DB)
    (givenPlate : string) : P bool :=
  debug Debug ("Entered plate: " ++ givenPlate)%string ;;~
  rows <~ quiet (Query_console E db (scan_spliced givenPlate) []) ;;
  match rows with
  | None => quiet nil_dereference        (* rows.Next() on a nil cursor *)
  | Some rs => scan_plate_logged Debug givenPlate rs
  end.

(** [typed] is what [fmt.Scanln(&plate)] stored in [plate]; [Debug] is
    [config.Global.Debug]. *)
Definition scanPlate (Debug : bool) (E : dialect) (hour : nat) (typed : string)
    : P unit :=
  write (Stdout_text "Voer uw kenteken in: ") ;;~
  let plate := typed in
  conn <~ quiet initializeDB ;;
  match conn with
  | None =>
      write (Log_fatal "ERROR: Cannot connect to the database: ") ;;~
      quiet Fatalf
  | Some db =>
      allowed <~ checkScannedPlateInDB_logged Debug E db plate ;;
      if negb allowed then
        write (Stdout_line "Kenteken niet toegestaan") ;;~
        write (Log_line ("INFO: Kenteken " ++ plate ++ " is niet toegelaten")%string)
      else
        write (Log_line ("INFO: Kenteken " ++ plate ++ " is doorgelaten")%string) ;;~
        firstMessage hour
  end.

(** The visitors of the examples in the source comments. *)
Definition jordy : visitors := Build_visitors "Jordy" "ABC-123".
Definition piet : visitors := Build_visitors "Piet" "DEF-456".

(** What came out of a run: the value returned, and for a handler the
    response it wrote. *)
Definition value {A : Type} (o : outcome A) : option A :=
  match o with
  | Returned a _ => Some a
  | _ => None
  end.

Definition answer (o : outcome (option response)) : option response :=
  match o with
  | Returned r _ => r
  | _ => None
  end.

(** The slice [getVisitorsFromDB] builds from a cursor over [l]: it stays
    nil when the cursor is empty. *)
Definition to_slice (l : list visitors) : slice :=
  match l with
  | [] => None
  | _ :: _ => Some l
  end.

(** * Properties *)

(** ** Reading a spliced plate *)

Lemma string_app_assoc (a b c : string) :
  ((a ++ b) ++ c)%string = (a ++ b ++ c)%string.
Proof.
  induction a as [|x a IH]; [reflexivity|].
  cbn [String.append]. now rewrite IH.
Qed.

Lemma read_literal_plain (p : string) :
  sql_plain p = true -> read_literal (p ++ "'")%string = Denotes p.
Proof.
  induction p as [|c p IH]; intros Hp.
  - reflexivity.
  - cbn [sql_plain] in Hp.
    apply andb_true_iff in Hp as [Hc Hp].
    apply andb_true_iff in Hc as [Hq Hb].
    apply negb_true_iff in Hq. apply negb_true_iff in Hb.
    change (String c p ++ "'")%string with (String c (p ++ "'")%string).
    cbn [read_literal]. rewrite Hq, Hb, (IH Hp). reflexivity.
Qed.

(** A plate that ends in one quote leaves the literal open. *)
Lemma read_literal_trailing_quote (p : string) :
  sql_plain p = true -> read_literal (p ++ "''")%string = Unterminated.
Proof.
  induction p as [|c p IH]; intros Hp.
  - reflexivity.
  - cbn [sql_plain] in Hp.
    apply andb_true_iff in Hp as [Hc Hp].
    apply andb_true_iff in Hc as [Hq Hb].
    apply negb_true_iff in Hq. apply negb_true_iff in Hb.
    change (String c p ++ "''")%string with (String c (p ++ "''")%string).
    cbn [read_literal]. rewrite Hq, Hb, (IH Hp). reflexivity.
Qed.

(** ** The engine on the five statements *)

Lemma execute_select_all (E : dialect) (t : list visitors) :
  execute E select_all_text [] t = Answered t t.
Proof. reflexivity. Qed.

Lemma execute_select_bound (E : dialect) (p : string) (t : list visitors) :
  execute E select_bound_text [p] t = Answered (filter (plate_is p) t) t.
Proof. reflexivity. Qed.

Lemma execute_insert_bound (E : dialect) (n p : string) (t : list visitors) :
  execute E insert_bound_text [n; p] t = Answered [] (t ++ [Build_visitors n p]).
Proof. reflexivity. Qed.

Lemma execute_select_spliced (E : dialect) (p : string) (t : list visitors) :
  execute E (select_spliced p) [] t =
    match read_literal (p ++ "'")%string with
    | Denotes s => Answered (filter (plate_is s) t) t
    | Unterminated => Refused
    | Foreign =>
        match foreign_select E (select_spliced p) t with
        | Some rows => Answered rows t
        | None => Refused
        end
    end.
Proof. reflexivity. Qed.

Lemma execute_delete_spliced (E : dialect) (p : string) (t : list visitors) :
  execute E (delete_spliced p) [] t =
    match read_literal (p ++ "'")%string with
    | Denotes s => Answered [] (filter (fun r => negb (plate_is s r)) t)
    | Unterminated => Refused
    | Foreign =>
        match foreign_delete E (delete_spliced p) t with
        | Some t' => Answered [] t'
        | None => Refused
        end
    end.
Proof. reflexivity. Qed.

(** A statement that selects leaves the table as it is, whatever is spliced
    into it. *)
Lemma execute_select_spliced_table (E : dialect) (p : string) (t : list visitors) :
  match execute E (select_spliced p) [] t with
  | Refused => True
  | Answered _ t' => t' = t
  end.
Proof.
  rewrite execute_select_spliced.
  destruct (read_literal (p ++ "'")%string); trivial.
  destruct (foreign_select E (select_spliced p) t); trivial.
Qed.

(** ** The loops over the cursor *)

Lemma scan_visitors_spec (rows : list visitors) (acc : slice) :
  scan_visitors rows acc =
    match rows with
    | [] => acc
    | _ :: _ => Some (items acc ++ rows)
    end.
Proof.
  revert acc. induction rows as [|r rest IH]; intros acc.
  - reflexivity.
  - cbn [scan_visitors]. destruct r as [n p]. cbn [Name Plate].
    unfold len, append. cbn [items].
    rewrite length_app, Nat.add_1_r. cbn [Nat.eqb].
    rewrite IH. cbn [items].
    destruct rest; [reflexivity|].
    rewrite <- app_assoc. reflexivity.
Qed.

Lemma scan_plate_existsb (p : string) (rows : list visitors) :
  scan_plate p rows = existsb (plate_is p) rows.
Proof.
  induction rows as [|r rest IH]; [reflexivity|].
  cbn [scan_plate existsb]. unfold plate_is at 1.
  destruct (Plate r =? p)%string; [reflexivity | exact IH].
Qed.

Lemma existsb_filter_same (p : string) (t : list visitors) :
  existsb (plate_is p) (filter (plate_is p) t) = existsb (plate_is p) t.
Proof.
  induction t as [|r t IH]; [reflexivity|].
  cbn [filter existsb]. destruct (plate_is p r) eqn:Hr.
  - cbn [existsb]. rewrite Hr. reflexivity.
  - exact IH.
Qed.

Lemma existsb_plate_is (p : string) (t : list visitors) :
  existsb (plate_is p) t = true <-> exists r, In r t /\ Plate r = p.
Proof.
  rewrite existsb_exists. unfold plate_is.
  split; intros [r [Hin Hr]]; exists r; split; trivial;
    now apply String.eqb_eq.
Qed.

Lemma filter_absent (p : string) (t : list visitors) :
  existsb (plate_is p) t = false -> filter (plate_is p) t = [].
Proof.
  induction t as [|r t IH]; [reflexivity|].
  cbn [existsb filter]. intros H. apply orb_false_iff in H as [Hr Ht].
  rewrite Hr. exact (IH Ht).
Qed.

Lemma filter_after_delete (p : string) (t : list visitors) :
  filter (plate_is p) (filter (fun r => negb (plate_is p r)) t) = [].
Proof.
  induction t as [|r t IH]; [reflexivity|].
  cbn [filter]. destruct (plate_is p r) eqn:Hr; cbn [negb].
  - exact IH.
  - cbn [filter]. rewrite Hr. exact IH.
Qed.


(** ** The gateway when the database answers *)

Lemma initializeDB_calm (t : list visitors) (j : list event) :
  initializeDB (World t [] j) = Returned (Some Handle) (World t [] (j ++ [Opened])).
Proof. reflexivity. Qed.

Lemma Query_calm (E : dialect) (db : DB) (text : string) (args : list string)
    (t : list visitors) (j : list event) :
  Query E db text args (World t [] j) =
    match execute E text args t with
    | Refused => Returned None (World t [] (j ++ [Sent text args]))
    | Answered rows t' => Returned (Some rows) (World t' [] (j ++ [Sent text args]))
    end.
Proof. reflexivity. Qed.

(** ** The registry when the database answers *)

Lemma scan_visitors_nil (rows : list visitors) :
  scan_visitors rows None = to_slice rows.
Proof. rewrite scan_visitors_spec. destruct rows; reflexivity. Qed.

Lemma getVisitorsFromDB_all (E : dialect) (t : list visitors) (j : list event) :
  getVisitorsFromDB E "" (World t [] j) =
    Returned (to_slice t) (World t [] (j ++ [Opened] ++ [Sent select_all_text []])).
Proof.
  unfold getVisitorsFromDB, bind. rewrite initializeDB_calm.
  cbn [String.eqb]. rewrite Query_calm, execute_select_all.
  unfold ret. rewrite scan_visitors_nil, <- app_assoc. reflexivity.
Qed.

Lemma getVisitorsFromDB_plate (E : dialect) (p : string) (t : list visitors)
    (j : list event) :
  p <> "" ->
  getVisitorsFromDB E p (World t [] j) =
    Returned (to_slice (filter (plate_is p) t))
             (World t [] (j ++ [Opened] ++ [Sent select_bound_text [p]])).
Proof.
  intros Hp. apply String.eqb_neq in Hp.
  unfold getVisitorsFromDB, bind. rewrite initializeDB_calm, Hp.
  rewrite Query_calm, execute_select_bound.
  unfold ret. rewrite scan_visitors_nil, <- app_assoc. reflexivity.
Qed.

Lemma checkPlateAlreadyInDB_plain (E : dialect) (db : DB) (p : string)
    (t : list visitors) (j : list event) :
  sql_plain p = true ->
  checkPlateAlreadyInDB E db p (World t [] j) =
    Returned (existsb (plate_is p) t)
             (World t [] (j ++ [Sent (select_spliced p) []])).
Proof.
  intros Hp. unfold checkPlateAlreadyInDB, bind.
  rewrite Query_calm, execute_select_spliced, (read_literal_plain p Hp).
  unfold ret. rewrite scan_plate_existsb, existsb_filter_same. reflexivity.
Qed.

(** X13: When the database answers and the plate holds no quote and no
    backslash, [checkPlateAlreadyInDB] returns true exactly when a row of
    the table has that plate. *)
Lemma checkPlateAlreadyInDB_plain_iff (E : dialect) (db : DB) (p : string)
    (t : list visitors) (j : list event) :
  sql_plain p = true ->
  value (checkPlateAlreadyInDB E db p (World t [] j)) = Some true <->
  exists r, In r t /\ Plate r = p.
Proof.
  intros Hp. rewrite (checkPlateAlreadyInDB_plain E db p t j Hp).
  cbn [value]. rewrite <- existsb_plate_is.
  split; [intros H; now injection H | intros ->; reflexivity].
Qed.

Lemma checkPlateAlreadyInDB_trailing_quote (E : dialect) (db : DB) (p : string)
    (t : list visitors) (j : list event) :
  sql_plain p = true ->
  checkPlateAlreadyInDB E db (p ++ "'") (World t [] j) =
    Panicked (World t [] (j ++ [Sent (select_spliced (p ++ "'")) []])).
Proof.
  intros Hp. unfold checkPlateAlreadyInDB, bind.
  rewrite Query_calm, execute_select_spliced.
  rewrite string_app_assoc.
  change ("'" ++ "'")%string with "''".
  rewrite (read_literal_trailing_quote p Hp). reflexivity.
Qed.

Lemma addNewVisitorToDB_calm (E : dialect) (v : visitors) (t : list visitors)
    (j : list event) :
  addNewVisitorToDB E v (World t [] j) =
    Returned tt (World (t ++ [v]) []
                   (j ++ [Opened] ++ [Sent insert_bound_text [Name v; Plate v]])).
Proof.
  unfold addNewVisitorToDB, bind. rewrite initializeDB_calm.
  rewrite Query_calm, execute_insert_bound.
  destruct v as [n p]. cbn [Name Plate]. unfold ret.
  rewrite <- app_assoc. reflexivity.
Qed.

(** ** The handlers when the database answers *)

Lemma getVisitors_all (E : dialect) (t : list visitors) (j : list event) :
  getVisitors E "" (World t [] j) =
    Returned
      (Some match t with
            | [] => JSON StatusNotFound (H_message "Plate is not found in the database")
            | _ :: _ => JSON StatusOK (VisitorArray t)
            end)
      (World t [] (j ++ [Opened] ++ [Sent select_all_text []])).
Proof.
  unfold getVisitors, bind. rewrite getVisitorsFromDB_all.
  destruct t; reflexivity.
Qed.

Lemma existsb_after_delete (p : string) (t : list visitors) :
  existsb (plate_is p) (filter (fun r => negb (plate_is p r)) t) = false.
Proof.
  induction t as [|r t IH]; [reflexivity|].
  cbn [filter]. destruct (plate_is p r) eqn:Hr; cbn [negb].
  - exact IH.
  - cbn [existsb]. now rewrite Hr.
Qed.

(** POST with both fields given and a plain plate: 409 when the plate is
    there, otherwise the row is added and echoed with 201. *)
Lemma addVisitor_plain (E : dialect) (v : visitors) (t : list visitors)
    (j : list event) :
  Name v <> "" -> Plate v <> "" -> sql_plain (Plate v) = true ->
  addVisitor E (Some v) (World t [] j) =
    if existsb (plate_is (Plate v)) t then
      Returned (Some (JSON StatusConflict (H_message "Plate already in database")))
        (World t [] ((j ++ [Opened]) ++ [Sent (select_spliced (Plate v)) []]))
    else
      Returned (Some (JSON StatusCreated (VisitorObject v)))
        (World (t ++ [v]) []
           (((j ++ [Opened]) ++ [Sent (select_spliced (Plate v)) []])
              ++ [Opened] ++ [Sent insert_bound_text [Name v; Plate v]])).
Proof.
  intros Hn Hp Hplain.
  apply String.eqb_neq in Hn. apply String.eqb_neq in Hp.
  unfold addVisitor. rewrite Hn, Hp. cbn [orb].
  unfold bind at 1. rewrite initializeDB_calm.
  unfold bind at 1. rewrite (checkPlateAlreadyInDB_plain E Handle _ t _ Hplain).
  destruct (existsb (plate_is (Plate v)) t); [reflexivity|].
  unfold bind. rewrite addNewVisitorToDB_calm. reflexivity.
Qed.

(** POST with an empty field: 400, and the database is not called. *)
Lemma addVisitor_empty_field (E : dialect) (v : visitors) (w : world) :
  Name v = "" \/ Plate v = "" ->
  addVisitor E (Some v) w =
    Returned (Some (JSON StatusBadRequest (H_message "Name and plate are required"))) w.
Proof.
  intros H. unfold addVisitor.
  replace ((Name v =? "") || (Plate v =? ""))%string with true; [reflexivity|].
  symmetry. apply orb_true_iff.
  destruct H as [H|H]; [left|right]; now apply String.eqb_eq.
Qed.

(** DELETE with a plain plate: 409 and nothing changes when the plate is
    not there, otherwise its rows go and the answer is 200. *)
Lemma removeVisitor_plain (E : dialect) (p : string) (t : list visitors)
    (j : list event) :
  sql_plain p = true ->
  removeVisitor E p (World t [] j) =
    if existsb (plate_is p) t then
      Returned (Some (JSON StatusOK (H_message "Plate removed")))
        (World (filter (fun r => negb (plate_is p r)) t) []
           (((j ++ [Opened]) ++ [Sent (select_spliced p) []])
              ++ [Sent (delete_spliced p) []]))
    else
      Returned (Some (JSON StatusConflict (H_message "Plate is not found in the database")))
        (World t [] ((j ++ [Opened]) ++ [Sent (select_spliced p) []])).
Proof.
  intros Hplain. unfold removeVisitor.
  unfold bind at 1. rewrite initializeDB_calm.
  unfold bind at 1. rewrite (checkPlateAlreadyInDB_plain E Handle p t _ Hplain).
  destruct (existsb (plate_is p) t); cbn [negb]; [|reflexivity].
  unfold bind. rewrite Query_calm, execute_delete_spliced.
  rewrite (read_literal_plain p Hplain). reflexivity.
Qed.

(** A plate that ends in a quote: both handlers that test for the plate
    panic in the test, and the table is not touched. *)
Lemma addVisitor_trailing_quote (E : dialect) (n p : string) (t : list visitors)
    (j : list event) :
  n <> "" -> sql_plain p = true ->
  addVisitor E (Some (Build_visitors n (p ++ "'"))) (World t [] j) =
    Panicked (World t [] ((j ++ [Opened]) ++ [Sent (select_spliced (p ++ "'")) []])).
Proof.
  intros Hn Hplain. apply String.eqb_neq in Hn.
  unfold addVisitor. cbn [Name Plate]. rewrite Hn.
  replace (p ++ "'" =? "")%string with false
    by (destruct p; reflexivity).
  cbn [orb]. unfold bind at 1. rewrite initializeDB_calm.
  unfold bind. rewrite (checkPlateAlreadyInDB_trailing_quote E Handle p t _ Hplain).
  reflexivity.
Qed.

Lemma removeVisitor_trailing_quote (E : dialect) (p : string) (t : list visitors)
    (j : list event) :
  sql_plain p = true ->
  removeVisitor E (p ++ "'") (World t [] j) =
    Panicked (World t [] ((j ++ [Opened]) ++ [Sent (select_spliced (p ++ "'")) []])).
Proof.
  intros Hplain. unfold removeVisitor.
  unfold bind at 1. rewrite initializeDB_calm.
  unfold bind. rewrite (checkPlateAlreadyInDB_trailing_quote E Handle p t _ Hplain).
  reflexivity.
Qed.

(** * The claims *)

(** C1, as stated, fails on an empty registry: GET /visitors is answered
    with 404 and the message, not with 200 and an empty array. *)
Lemma C1_empty_registry_not_found :
  answer (serve strict GET_visitors (calm [])) =
    Some (JSON StatusNotFound (H_message "Plate is not found in the database"))
  /\ answer (serve strict GET_visitors (calm [])) <>
       Some (JSON StatusOK (VisitorArray [])).
Proof. split; [reflexivity | discriminate]. Qed.

(** C1, amended: when the database answers, GET /visitors without a plate
    makes [getVisitorsFromDB] return every row of the registry (the nil
    slice when there is none); the response is 200 with the array of all
    visitors when the registry holds a row, and 404 with the message
    [Plate is not found in the database] when it holds none.  The table is
    left as it was. *)
Theorem C1_get_visitors_unfiltered (E : dialect) (t : list visitors)
    (j : list event) :
  option_map items (value (getVisitorsFromDB E "" (World t [] j))) = Some t
  /\ answer (serve E GET_visitors (World t [] j)) =
       Some match t with
            | [] => JSON StatusNotFound (H_message "Plate is not found in the database")
            | _ :: _ => JSON StatusOK (VisitorArray t)
            end
  /\ table (world_of (serve E GET_visitors (World t [] j))) = t.
Proof.
  unfold serve, route. rewrite getVisitorsFromDB_all, getVisitors_all.
  cbn [value option_map answer world_of table].
  repeat split. destruct t; reflexivity.
Qed.

(** C2, as stated, fails when the plate is already there: the insert adds
    a second row and the lookup returns both. *)
Lemma C2_second_row_for_same_plate :
  value ((addNewVisitorToDB strict jordy ;;; getVisitorsFromDB strict (Plate jordy))
           (calm [jordy])) = Some (Some [jordy; jordy])
  /\ value ((addNewVisitorToDB strict jordy ;;; getVisitorsFromDB strict (Plate jordy))
           (calm [jordy])) <> Some (Some [jordy]).
Proof. split; [reflexivity | discriminate]. Qed.

(** C2, amended: when the database answers, [addNewVisitorToDB v] always
    appends the row [v]; and for a visitor with a non-empty plate, on a
    registry that holds no row with that plate, the insert followed by
    [getVisitorsFromDB (Plate v)] returns exactly one record, equal to [v]. *)
Theorem C2_insert_then_list (E : dialect) (v : visitors) (t : list visitors)
    (j : list event) :
  Plate v <> "" ->
  (forall r, In r t -> Plate r <> Plate v) ->
  table (world_of (addNewVisitorToDB E v (World t [] j))) = t ++ [v]
  /\ value ((addNewVisitorToDB E v ;;; getVisitorsFromDB E (Plate v)) (World t [] j))
     = Some (Some [v]).
Proof.
  intros Hp Hfresh. rewrite addNewVisitorToDB_calm. split; [reflexivity|].
  unfold bind. rewrite addNewVisitorToDB_calm.
  rewrite (getVisitorsFromDB_plate E (Plate v) _ _ Hp).
  rewrite filter_app, filter_absent.
  - cbn [filter app]. unfold plate_is. rewrite String.eqb_refl. reflexivity.
  - destruct (existsb (plate_is (Plate v)) t) eqn:Hx; [|reflexivity].
    apply existsb_plate_is in Hx as [r [Hin Hr]].
    now destruct (Hfresh r Hin).
Qed.

Lemma C2_insert_then_list_witness :
  Plate piet <> ""
  /\ (forall r, In r [jordy] -> Plate r <> Plate piet)
  /\ table (world_of (addNewVisitorToDB strict piet (World [jordy] [] []))) = [jordy] ++ [piet]
  /\ value ((addNewVisitorToDB strict piet ;;; getVisitorsFromDB strict (Plate piet))
              (World [jordy] [] [])) = Some (Some [piet]).
Proof.
  assert (Hp : Plate piet <> "") by discriminate.
  assert (Hfresh : forall r, In r [jordy] -> Plate r <> Plate piet).
  { intros r [<-|[]]. discriminate. }
  split; [exact Hp|]. split; [exact Hfresh|].
  exact (C2_insert_then_list strict piet [jordy] [] Hp Hfresh).
Defined.

(** C3 at a plate that ends in a quote: whatever the registry holds, the
    existence test panics on the refused statement, the recovery
    middleware answers 500, and no row is inserted; the claim asks for 201
    and the inserted row when the plate is not in the registry. *)
Theorem C3_post_plate_with_quote (E : dialect) (t : list visitors)
    (j : list event) :
  route E (POST_visitors (Some (Build_visitors "Jordy" "AB-12'"))) (World t [] j) =
    Panicked (World t [] ((j ++ [Opened]) ++ [Sent (select_spliced "AB-12'") []]))
  /\ answer (serve E (POST_visitors (Some (Build_visitors "Jordy" "AB-12'"))) (World t [] j)) =
       Some (JSON StatusInternalServerError NoBody)
  /\ table (world_of (serve E (POST_visitors (Some (Build_visitors "Jordy" "AB-12'")))
                        (World t [] j))) = t.
Proof.
  assert (H : route E (POST_visitors (Some (Build_visitors "Jordy" "AB-12'"))) (World t [] j) =
    Panicked (World t [] ((j ++ [Opened]) ++ [Sent (select_spliced "AB-12'") []]))).
  { unfold route.
    apply (addVisitor_trailing_quote E "Jordy" "AB-12" t j); [discriminate | reflexivity]. }
  unfold serve. rewrite H. repeat split.
Qed.

(** C4 at a plate that ends in a quote: whatever the registry holds, the
    existence test panics on the refused statement, the recovery
    middleware answers 500, and no row is deleted; the claim asks for 409
    when the plate is absent and for 200 with the rows deleted when it is
    there. *)
Theorem C4_delete_plate_with_quote (E : dialect) (t : list visitors)
    (j : list event) :
  route E (DELETE_visitors_plate "AB-12'") (World t [] j) =
    Panicked (World t [] ((j ++ [Opened]) ++ [Sent (select_spliced "AB-12'") []]))
  /\ answer (serve E (DELETE_visitors_plate "AB-12'") (World t [] j)) =
       Some (JSON StatusInternalServerError NoBody)
  /\ table (world_of (serve E (DELETE_visitors_plate "AB-12'") (World t [] j))) = t.
Proof.
  assert (H : route E (DELETE_visitors_plate "AB-12'") (World t [] j) =
    Panicked (World t [] ((j ++ [Opened]) ++ [Sent (select_spliced "AB-12'") []]))).
  { unfold route.
    apply (removeVisitor_trailing_quote E "AB-12" t j). reflexivity. }
  unfold serve. rewrite H. repeat split.
Qed.

(** C5 at an insert the database fails: POST of a valid visitor whose plate
    is not in the registry, with the INSERT statement failing.  The process
    exits inside [addNewVisitorToDB]; no response is written, where the
    claim asks for a 500 response. *)
Theorem C5_failed_insert_exits (E : dialect) :
  serve E (POST_visitors (Some piet)) (World [jordy] [false; false; false; true] []) =
    Exited (World [jordy] []
              [Opened; Sent (select_spliced "DEF-456") [];
               Opened; Sent insert_bound_text ["Piet"; "DEF-456"]])
  /\ answer (serve E (POST_visitors (Some piet))
               (World [jordy] [false; false; false; true] [])) = None.
Proof. split; reflexivity. Qed.

(** The sibling path of C5: a DELETE statement the database fails is
    answered with 500 by [removeVisitor]. *)
Lemma removeVisitor_failed_delete (E : dialect) :
  serve E (DELETE_visitors_plate "ABC-123") (World [jordy] [false; false; true] []) =
    Returned (Some (JSON StatusInternalServerError (H_message "Internal server error")))
      (World [jordy] []
         [Opened; Sent (select_spliced "ABC-123") []; Sent (delete_spliced "ABC-123") []]).
Proof. reflexivity. Qed.

(** C6, as stated, fails: the second DELETE of the same plate is answered
    with 409, an error status. *)
Lemma C6_second_delete_conflict :
  answer ((serve strict (DELETE_visitors_plate "ABC-123") ;;;
           serve strict (DELETE_visitors_plate "ABC-123")) (calm [jordy])) =
    Some (JSON StatusConflict (H_message "Plate is not found in the database"))
  /\ option_map is_error
       (answer ((serve strict (DELETE_visitors_plate "ABC-123") ;;;
                 serve strict (DELETE_visitors_plate "ABC-123")) (calm [jordy]))) =
     Some true.
Proof. split; reflexivity. Qed.

(** C6, amended: when the database answers and the plate holds no quote
    and no backslash, the second of two DELETE requests for that plate
    finds no row, leaves the table as the first request left it and sends
    no DELETE statement, and is answered with 409 and the message
    [Plate is not found in the database]: no database error, no 500, no
    panic and no exit. *)
Theorem C6_delete_twice (E : dialect) (p : string) (t : list visitors)
    (j : list event) :
  sql_plain p = true ->
  exists first w1 w2,
    serve E (DELETE_visitors_plate p) (World t [] j) = Returned first w1
    /\ serve E (DELETE_visitors_plate p) w1 =
         Returned (Some (JSON StatusConflict
                           (H_message "Plate is not found in the database"))) w2
    /\ table w2 = table w1
    /\ journal w2 = (journal w1 ++ [Opened]) ++ [Sent (select_spliced p) []].
Proof.
  intros Hplain. unfold serve, route.
  rewrite (removeVisitor_plain E p t j Hplain).
  destruct (existsb (plate_is p) t) eqn:Hx.
  - eexists _, _, _. split; [reflexivity|].
    rewrite (removeVisitor_plain E p _ _ Hplain), existsb_after_delete.
    repeat split.
  - eexists _, _, _. split; [reflexivity|].
    rewrite (removeVisitor_plain E p _ _ Hplain), Hx.
    repeat split.
Qed.

Lemma C6_delete_twice_witness :
  sql_plain "ABC-123" = true
  /\ exists first w1 w2,
       serve strict (DELETE_visitors_plate "ABC-123") (World [jordy; piet] [] []) =
         Returned first w1
       /\ serve strict (DELETE_visitors_plate "ABC-123") w1 =
            Returned (Some (JSON StatusConflict
                              (H_message "Plate is not found in the database"))) w2
       /\ table w2 = table w1
       /\ journal w2 = (journal w1 ++ [Opened]) ++ [Sent (select_spliced "ABC-123") []].
Proof.
  split; [reflexivity|].
  exact (C6_delete_twice strict "ABC-123" [jordy; piet] [] eq_refl).
Defined.

(** C7 at a plate that ends in a quote: whatever the registry holds, also
    a row with exactly that plate, [checkPlateAlreadyInDB] returns neither
    true nor false: the statement is refused and the loop over the nil
    cursor panics. *)
Theorem C7_exists_plate_with_quote (E : dialect) (db : DB) (t : list visitors)
    (j : list event) :
  checkPlateAlreadyInDB E db "AB-12'" (World t [] j) =
    Panicked (World t [] (j ++ [Sent (select_spliced "AB-12'") []]))
  /\ value (checkPlateAlreadyInDB E db "AB-12'"
              (World (Build_visitors "Jordy" "AB-12'" :: t) [] j)) = None.
Proof.
  split.
  - apply (checkPlateAlreadyInDB_trailing_quote E db "AB-12" t j). reflexivity.
  - rewrite (checkPlateAlreadyInDB_trailing_quote E db "AB-12" _ j eq_refl).
    reflexivity.
Qed.

(** What the engine makes of the existence test for the plate [a''b]: the
    doubled quote is read as one quote, the rows asked for are those with
    plate [a'b], and none of them has the plate that was given. *)
Lemma scan_plate_doubled_quote (t : list visitors) :
  scan_plate "a''b" (filter (plate_is "a'b") t) = false.
Proof.
  induction t as [|r t IH]; [reflexivity|].
  cbn [filter]. destruct (plate_is "a'b" r) eqn:Hr; [|exact IH].
  cbn [scan_plate]. unfold plate_is in Hr. apply String.eqb_eq in Hr.
  rewrite Hr. exact IH.
Qed.

Lemma checkPlateAlreadyInDB_doubled_quote (E : dialect) (db : DB)
    (t : list visitors) (j : list event) :
  checkPlateAlreadyInDB E db "a''b" (World t [] j) =
    Returned false (World t [] (j ++ [Sent (select_spliced "a''b") []])).
Proof.
  unfold checkPlateAlreadyInDB, bind.
  rewrite Query_calm, execute_select_spliced.
  change (read_literal ("a''b" ++ "'")%string) with (Denotes "a'b").
  unfold ret. now rewrite scan_plate_doubled_quote.
Qed.

(** C8 at the plate [a''b], on every registry: the POST of a visitor with
    that plate is answered 201 and appends the row; the DELETE of the plate
    that follows is answered 409, because the existence test splices the
    plate into the statement and asks the engine for the plate [a'b]; no
    DELETE statement is sent and the row stays; [getVisitorsFromDB] of the
    plate then returns the rows with that plate, the new row among them,
    where the claim asks for an empty sequence. *)
Theorem C8_delete_doubled_quote_keeps_row (E : dialect) (t : list visitors)
    (j : list event) :
  exists w1 w2 w3,
    serve E (POST_visitors (Some (Build_visitors "Jordy" "a''b"))) (World t [] j) =
      Returned (Some (JSON StatusCreated (VisitorObject (Build_visitors "Jordy" "a''b")))) w1
    /\ serve E (DELETE_visitors_plate "a''b") w1 =
         Returned (Some (JSON StatusConflict
                           (H_message "Plate is not found in the database"))) w2
    /\ table w2 = t ++ [Build_visitors "Jordy" "a''b"]
    /\ getVisitorsFromDB E "a''b" w2 =
         Returned (Some (filter (plate_is "a''b") t ++ [Build_visitors "Jordy" "a''b"])) w3.
Proof.
  unfold serve, route, addVisitor, removeVisitor. cbn [Name Plate String.eqb orb].
  eexists _, _, _. split; [|split; [|split]].
  - unfold bind at 1. rewrite initializeDB_calm.
    unfold bind at 1. rewrite checkPlateAlreadyInDB_doubled_quote.
    unfold bind. rewrite addNewVisitorToDB_calm. reflexivity.
  - unfold bind at 1. rewrite initializeDB_calm.
    unfold bind. rewrite checkPlateAlreadyInDB_doubled_quote. reflexivity.
  - reflexivity.
  - rewrite getVisitorsFromDB_plate by discriminate.
    rewrite filter_app. cbn [filter plate_is Plate String.eqb Ascii.eqb Bool.eqb].
    unfold to_slice.
    destruct (filter (plate_is "a''b") t); reflexivity.
Qed.

(** For a non-empty plate without quote or backslash, when the database
    answers, DELETE of the plate followed by [getVisitorsFromDB] of the
    plate returns the nil slice, whatever the registry held. *)
Lemma removeVisitor_then_list_plain (E : dialect) (p : string) (t : list visitors)
    (j : list event) :
  p <> "" ->
  sql_plain p = true ->
  value ((removeVisitor E p ;;; getVisitorsFromDB E p) (World t [] j)) = Some None.
Proof.
  intros Hp Hplain. unfold bind.
  rewrite (removeVisitor_plain E p t j Hplain).
  destruct (existsb (plate_is p) t) eqn:Hx;
    rewrite (getVisitorsFromDB_plate E p _ _ Hp).
  - rewrite filter_after_delete. reflexivity.
  - rewrite (filter_absent p t Hx). reflexivity.
Qed.

(** C9: when [c.BindJSON] fails, POST /visitors returns at once, in every
    world: the handler writes no response, no connection is opened, no
    statement is sent (the existence test is not run) and the table is as
    it was. *)
Theorem C9_bind_failure_returns (E : dialect) (w : world) :
  route E (POST_visitors None) w = Returned None w
  /\ serve E (POST_visitors None) w = Returned None w
  /\ journal (world_of (serve E (POST_visitors None) w)) = journal w
  /\ table (world_of (serve E (POST_visitors None) w)) = table w.
Proof. repeat split. Qed.

(** C10: the reads leave the rows of the table as they were, for every
    plate, every dialect and every world, also when a database call fails:
    [getVisitorsFromDB], both GET routes, and [checkPlateAlreadyInDB]. *)
Theorem C10_reads_keep_table (E : dialect) (p : string) (w : world) :
  table (world_of (getVisitorsFromDB E p w)) = table w
  /\ table (world_of (serve E GET_visitors w)) = table w
  /\ table (world_of (serve E (GET_visitors_plate p) w)) = table w
  /\ (forall db, table (world_of (checkPlateAlreadyInDB E db p w)) = table w).
Proof.
  assert (Hlist : forall q, table (world_of (getVisitorsFromDB E q w)) = table w).
  { intros q. unfold getVisitorsFromDB, bind, initializeDB, Query.
    destruct (faults w) as [|[|] [|[|] fs]]; cbn [faults table tl];
      try reflexivity;
      destruct (q =? "")%string;
      rewrite ?execute_select_all, ?execute_select_bound; reflexivity. }
  assert (Hget : forall q, table (world_of (getVisitors E q w)) = table w).
  { intros q. specialize (Hlist q). unfold getVisitors, bind.
    destruct (getVisitorsFromDB E q w) as [[l|] w'| w' | w']; exact Hlist. }
  assert (Hserve : forall q, table (world_of
            (match getVisitors E q w with
             | Panicked w' => Returned (Some (JSON StatusInternalServerError NoBody)) w'
             | o => o
             end)) = table w).
  { intros q. specialize (Hget q).
    destruct (getVisitors E q w); exact Hget. }
  split; [apply Hlist|]. split; [apply (Hserve "")|]. split; [apply (Hserve p)|].
  intros db. unfold checkPlateAlreadyInDB, bind, Query.
  pose proof (execute_select_spliced_table E p (table w)) as Hx.
  destruct (faults w) as [|[|] fs]; cbn [tl]; try reflexivity;
    destruct (execute E (select_spliced p) [] (table w)) as [|rows t'];
    try reflexivity; exact Hx.
Qed.

(** * Further properties of the HTTP surface *)

(** ** The gateway, one call at a time *)

Lemma initializeDB_answers (t : list visitors) (fs : list bool) (j : list event) :
  initializeDB (World t (false :: fs) j) =
    Returned (Some Handle) (World t fs (j ++ [Opened])).
Proof. reflexivity. Qed.

Lemma initializeDB_fails (t : list visitors) (fs : list bool) (j : list event) :
  initializeDB (World t (true :: fs) j) = Returned None (World t fs (j ++ [Opened])).
Proof. reflexivity. Qed.

Lemma Query_answers (E : dialect) (db : DB) (text : string) (args : list string)
    (t : list visitors) (fs : list bool) (j : list event) :
  Query E db text args (World t (false :: fs) j) =
    match execute E text args t with
    | Refused => Returned None (World t fs (j ++ [Sent text args]))
    | Answered rows t' => Returned (Some rows) (World t' fs (j ++ [Sent text args]))
    end.
Proof. reflexivity. Qed.

Lemma Query_fails (E : dialect) (db : DB) (text : string) (args : list string)
    (t : list visitors) (fs : list bool) (j : list event) :
  Query E db text args (World t (true :: fs) j) =
    Returned None (World t fs (j ++ [Sent text args])).
Proof. reflexivity. Qed.

Lemma checkPlateAlreadyInDB_plain_answers (E : dialect) (db : DB) (p : string)
    (t : list visitors) (fs : list bool) (j : list event) :
  sql_plain p = true ->
  checkPlateAlreadyInDB E db p (World t (false :: fs) j) =
    Returned (existsb (plate_is p) t)
             (World t fs (j ++ [Sent (select_spliced p) []])).
Proof.
  intros Hp. unfold checkPlateAlreadyInDB, bind.
  rewrite Query_answers, execute_select_spliced, (read_literal_plain p Hp).
  unfold ret. rewrite scan_plate_existsb, existsb_filter_same. reflexivity.
Qed.

(** ** What the table can become *)

Lemma initializeDB_keeps_table (w : world) :
  table (world_of (initializeDB w)) = table w.
Proof.
  unfold initializeDB. destruct (faults w) as [|[|] fs]; reflexivity.
Qed.

Lemma checkPlateAlreadyInDB_keeps_table (E : dialect) (db : DB) (p : string)
    (w : world) :
  table (world_of (checkPlateAlreadyInDB E db p w)) = table w.
Proof.
  unfold checkPlateAlreadyInDB, bind, Query.
  pose proof (execute_select_spliced_table E p (table w)) as Hx.
  destruct (faults w) as [|[|] fs]; cbn [tl]; try reflexivity;
    destruct (execute E (select_spliced p) [] (table w)) as [|rows t'];
    try reflexivity; exact Hx.
Qed.

Lemma addNewVisitorToDB_table (E : dialect) (v : visitors) (w : world) :
  table (world_of (addNewVisitorToDB E v w)) = table w
  \/ table (world_of (addNewVisitorToDB E v w)) = table w ++ [v].
Proof.
  unfold addNewVisitorToDB, bind, initializeDB, Query.
  destruct v as [n p]. cbn [Name Plate].
  destruct (faults w) as [|[|] [|[|] fs]]; cbn [faults table tl];
    rewrite ?execute_insert_bound; cbn [world_of table Fatalf ret];
    (left; reflexivity) || (right; reflexivity).
Qed.

Lemma filter_keeps_absent (p : string) (t : list visitors) :
  existsb (plate_is p) t = false -> filter (fun r => negb (plate_is p r)) t = t.
Proof.
  induction t as [|r t IH]; [reflexivity|].
  cbn [existsb filter]. intros H. apply orb_false_iff in H as [Hr Ht].
  rewrite Hr. cbn [negb]. now rewrite (IH Ht).
Qed.

Lemma existsb_after_insert (v : visitors) (t : list visitors) :
  existsb (plate_is (Plate v)) (t ++ [v]) = true.
Proof.
  rewrite existsb_app. cbn [existsb]. unfold plate_is at 2.
  rewrite String.eqb_refl. now rewrite orb_true_r.
Qed.

(** One database call, whatever the next fault is. *)
Ltac gateway :=
  repeat first
    [ rewrite initializeDB_calm | rewrite initializeDB_answers
    | rewrite initializeDB_fails | rewrite Query_calm
    | rewrite Query_answers | rewrite Query_fails ].

Lemma getVisitorsFromDB_never_empty_slice (E : dialect) (p : string) (w : world) :
  value (getVisitorsFromDB E p w) <> Some (Some []).
Proof.
  destruct w as [t fs j]. unfold getVisitorsFromDB, bind.
  destruct fs as [|[|] [|[|] fs]]; gateway; try discriminate;
    destruct (p =? "")%string; gateway;
    rewrite ?execute_select_all, ?execute_select_bound;
    cbn [value ret Fatalf nil_dereference]; rewrite ?scan_visitors_nil;
    try discriminate.
  all: match goal with
       | |- context [to_slice ?l] => destruct l; discriminate
       end.
Qed.

Lemma serve_world (E : dialect) (req : request) (w : world) :
  world_of (serve E req w) = world_of (route E req w).
Proof. unfold serve. destruct (route E req w); reflexivity. Qed.


(** ** GET /visitors/{plate} *)

(** X1: When the database answers, GET with a non-empty plate, quotes and
    backslashes included, is answered with 200 and exactly the rows whose
    plate is the given one, or with 404 when there is none; the table is
    left as it was. *)
Theorem get_by_plate_answers (E : dialect) (p : string) (t : list visitors)
    (j : list event) :
  p <> "" ->
  serve E (GET_visitors_plate p) (World t [] j) =
    Returned
      (Some match filter (plate_is p) t with
            | [] => JSON StatusNotFound (H_message "Plate is not found in the database")
            | _ :: _ => JSON StatusOK (VisitorArray (filter (plate_is p) t))
            end)
      (World t [] (j ++ [Opened] ++ [Sent select_bound_text [p]])).
Proof.
  intros Hp. unfold serve, route, getVisitors, bind.
  rewrite (getVisitorsFromDB_plate E p t j Hp).
  destruct (filter (plate_is p) t); reflexivity.
Qed.

Lemma get_by_plate_answers_witness :
  "AB-12'" <> ""
  /\ serve strict (GET_visitors_plate "AB-12'")
       (World [jordy; Build_visitors "Jan" "AB-12'"] [] []) =
     Returned
       (Some match filter (plate_is "AB-12'") [jordy; Build_visitors "Jan" "AB-12'"] with
             | [] => JSON StatusNotFound (H_message "Plate is not found in the database")
             | _ :: _ =>
                 JSON StatusOK
                   (VisitorArray
                      (filter (plate_is "AB-12'") [jordy; Build_visitors "Jan" "AB-12'"]))
             end)
       (World [jordy; Build_visitors "Jan" "AB-12'"] []
          ([] ++ [Opened] ++ [Sent select_bound_text ["AB-12'"]])).
Proof.
  assert (Hp : "AB-12'" <> "") by discriminate.
  split; [exact Hp|].
  exact (get_by_plate_answers strict "AB-12'" [jordy; Build_visitors "Jan" "AB-12'"] [] Hp).
Defined.

(** X2: A GET route never answers 200 with an empty array, in any world and
    for any plate: an array that is sent holds at least one visitor. *)
Theorem get_never_answers_empty_array (E : dialect) (p : string) (w : world)
    (l : list visitors) :
  answer (serve E (GET_visitors_plate p) w) = Some (JSON StatusOK (VisitorArray l)) ->
  l <> [].
Proof.
  unfold serve, route, getVisitors, bind.
  pose proof (getVisitorsFromDB_never_empty_slice E p w) as Hs.
  destruct (getVisitorsFromDB E p w) as [[l'|] w' | w' | w'];
    cbn [answer reply_with ret]; intros H; try discriminate.
  injection H as <-. intros ->. now apply Hs.
Qed.

Lemma get_never_answers_empty_array_witness :
  answer (serve strict (GET_visitors_plate "ABC-123") (calm [jordy; piet])) =
    Some (JSON StatusOK (VisitorArray [jordy]))
  /\ [jordy] <> [].
Proof.
  assert (H : answer (serve strict (GET_visitors_plate "ABC-123") (calm [jordy; piet])) =
              Some (JSON StatusOK (VisitorArray [jordy]))) by reflexivity.
  split; [exact H|].
  exact (get_never_answers_empty_array strict "ABC-123" (calm [jordy; piet]) [jordy] H).
Defined.

(** ** POST /visitors *)

(** X3: A POST with an empty name or an empty plate is answered with 400
    before the database is touched, in every world: no connection is
    opened and no pending fault is consumed. *)
Theorem post_with_empty_field_skips_database (E : dialect) (v : visitors) (w : world) :
  Name v = "" \/ Plate v = "" ->
  serve E (POST_visitors (Some v)) w =
    Returned (Some (JSON StatusBadRequest (H_message "Name and plate are required"))) w.
Proof.
  intros H. unfold serve, route.
  rewrite (addVisitor_empty_field E v w H). reflexivity.
Qed.

Lemma post_with_empty_field_skips_database_witness :
  (Name (Build_visitors "" "X") = "" \/ Plate (Build_visitors "" "X") = "")
  /\ serve strict (POST_visitors (Some (Build_visitors "" "X"))) (World [jordy] [true] []) =
     Returned (Some (JSON StatusBadRequest (H_message "Name and plate are required")))
       (World [jordy] [true] []).
Proof.
  assert (H : Name (Build_visitors "" "X") = "" \/ Plate (Build_visitors "" "X") = "")
    by (left; reflexivity).
  split; [exact H|].
  exact (post_with_empty_field_skips_database strict (Build_visitors "" "X")
           (World [jordy] [true] []) H).
Defined.

(** X4: Whatever the body, the plate, the dialect and the faults, a POST
    leaves the table as it was or with the submitted record appended: it
    never changes or removes a row. *)
Theorem post_only_appends (E : dialect) (b : option visitors) (w : world) :
  table (world_of (serve E (POST_visitors b) w)) = table w
  \/ exists v, b = Some v
       /\ table (world_of (serve E (POST_visitors b) w)) = table w ++ [v].
Proof.
  rewrite serve_world. unfold route, addVisitor.
  destruct b as [v|]; [|left; reflexivity].
  destruct ((Name v =? "") || (Plate v =? ""))%string; [left; reflexivity|].
  unfold bind.
  pose proof (initializeDB_keeps_table w) as H1.
  destruct (initializeDB w) as [[db|] w1 | w1 | w1]; cbn [world_of] in H1;
    cbv beta iota; try (left; exact H1).
  pose proof (checkPlateAlreadyInDB_keeps_table E db (Plate v) w1) as H2.
  destruct (checkPlateAlreadyInDB E db (Plate v) w1) as [[|] w2 | w2 | w2];
    cbn [world_of] in H2; cbv beta iota;
    try (left; cbn [world_of reply_with ret]; congruence).
  pose proof (addNewVisitorToDB_table E v w2) as H3.
  destruct (addNewVisitorToDB E v w2) as [[] w3 | w3 | w3]; cbn [world_of] in H3;
    cbn [world_of reply_with ret];
    (destruct H3 as [H3|H3];
     [left; congruence | right; exists v; split; [reflexivity | congruence]]).
Qed.

(** X6: When the database answers, posting the same valid visitor twice makes
    the second POST answer 409 and add nothing, whether or not the plate
    was there before the first. *)
Theorem post_twice_conflicts (E : dialect) (v : visitors) (t : list visitors)
    (j : list event) :
  Name v <> "" -> Plate v <> "" -> sql_plain (Plate v) = true ->
  exists first w1 w2,
    serve E (POST_visitors (Some v)) (World t [] j) = Returned first w1
    /\ serve E (POST_visitors (Some v)) w1 =
         Returned (Some (JSON StatusConflict (H_message "Plate already in database"))) w2
    /\ table w2 = table w1.
Proof.
  intros Hn Hp Hplain. unfold serve, route.
  rewrite (addVisitor_plain E v t j Hn Hp Hplain).
  destruct (existsb (plate_is (Plate v)) t) eqn:Hx.
  - eexists _, _, _. split; [reflexivity|].
    rewrite (addVisitor_plain E v _ _ Hn Hp Hplain), Hx. split; reflexivity.
  - eexists _, _, _. split; [reflexivity|].
    rewrite (addVisitor_plain E v _ _ Hn Hp Hplain), existsb_after_insert.
    split; reflexivity.
Qed.

Lemma post_twice_conflicts_witness :
  Name piet <> "" /\ Plate piet <> "" /\ sql_plain (Plate piet) = true
  /\ exists first w1 w2,
       serve strict (POST_visitors (Some piet)) (World [jordy] [] []) = Returned first w1
       /\ serve strict (POST_visitors (Some piet)) w1 =
            Returned (Some (JSON StatusConflict (H_message "Plate already in database"))) w2
       /\ table w2 = table w1.
Proof.
  assert (Hn : Name piet <> "") by discriminate.
  assert (Hp : Plate piet <> "") by discriminate.
  split; [exact Hn|]. split; [exact Hp|]. split; [reflexivity|].
  exact (post_twice_conflicts strict piet [jordy] [] Hn Hp eq_refl).
Defined.



(** ** DELETE /visitors/{plate} *)

(** X8: When the database answers and the plate holds no quote and no
    backslash, a DELETE leaves exactly the rows with another plate, every
    duplicate of the plate gone at once; it is answered 200 when the plate
    was there and 409 when it was not. *)
Theorem delete_removes_exactly_the_plate (E : dialect) (p : string)
    (t : list visitors) (j : list event) :
  sql_plain p = true ->
  table (world_of (serve E (DELETE_visitors_plate p) (World t [] j))) =
    filter (fun r => negb (plate_is p r)) t
  /\ answer (serve E (DELETE_visitors_plate p) (World t [] j)) =
       Some (if existsb (plate_is p) t
             then JSON StatusOK (H_message "Plate removed")
             else JSON StatusConflict (H_message "Plate is not found in the database")).
Proof.
  intros Hplain. unfold serve, route.
  rewrite (removeVisitor_plain E p t j Hplain).
  destruct (existsb (plate_is p) t) eqn:Hx; cbn [world_of table answer].
  - split; reflexivity.
  - split; [|reflexivity]. now rewrite (filter_keeps_absent p t Hx).
Qed.

Lemma delete_removes_exactly_the_plate_witness :
  sql_plain "ABC-123" = true
  /\ table (world_of (serve strict (DELETE_visitors_plate "ABC-123")
                        (World [jordy; piet; jordy] [] []))) =
       filter (fun r => negb (plate_is "ABC-123" r)) [jordy; piet; jordy]
  /\ answer (serve strict (DELETE_visitors_plate "ABC-123")
               (World [jordy; piet; jordy] [] [])) =
       Some (if existsb (plate_is "ABC-123") [jordy; piet; jordy]
             then JSON StatusOK (H_message "Plate removed")
             else JSON StatusConflict (H_message "Plate is not found in the database")).
Proof.
  split; [reflexivity|].
  exact (delete_removes_exactly_the_plate strict "ABC-123" [jordy; piet; jordy] [] eq_refl).
Defined.

(** X9: When the plate is there and the database fails the DELETE statement,
    the answer is 500 with [Internal server error] and no row is lost. *)
Theorem failed_delete_answers_500 (E : dialect) (p : string) (t : list visitors)
    (fs : list bool) (j : list event) :
  sql_plain p = true ->
  existsb (plate_is p) t = true ->
  serve E (DELETE_visitors_plate p) (World t (false :: false :: true :: fs) j) =
    Returned (Some (JSON StatusInternalServerError (H_message "Internal server error")))
      (World t fs (((j ++ [Opened]) ++ [Sent (select_spliced p) []])
                     ++ [Sent (delete_spliced p) []])).
Proof.
  intros Hplain Hx. unfold serve, route, removeVisitor.
  unfold bind at 1. rewrite initializeDB_answers.
  unfold bind at 1. rewrite (checkPlateAlreadyInDB_plain_answers E Handle p t _ _ Hplain).
  rewrite Hx. cbn [negb]. unfold bind. rewrite Query_fails. reflexivity.
Qed.

Lemma failed_delete_answers_500_witness :
  sql_plain "ABC-123" = true
  /\ existsb (plate_is "ABC-123") [jordy; piet] = true
  /\ serve strict (DELETE_visitors_plate "ABC-123")
       (World [jordy; piet] (false :: false :: true :: []) []) =
     Returned (Some (JSON StatusInternalServerError (H_message "Internal server error")))
       (World [jordy; piet] []
          ((([] ++ [Opened]) ++ [Sent (select_spliced "ABC-123") []])
             ++ [Sent (delete_spliced "ABC-123") []])).
Proof.
  split; [reflexivity|]. split; [reflexivity|].
  exact (failed_delete_answers_500 strict "ABC-123" [jordy; piet] [] [] eq_refl eq_refl).
Defined.

(** ** When the database does not answer *)

(** X10: A connection that cannot be opened stops the process in every handler
    that reaches the database: GET (with or without plate), DELETE and a
    POST with both fields given.  No response is written and the table is
    as it was. *)
Theorem connection_failure_stops_process (E : dialect) (p : string) (v : visitors)
    (t : list visitors) (fs : list bool) (j : list event) :
  Name v <> "" -> Plate v <> "" ->
  serve E (GET_visitors_plate p) (World t (true :: fs) j) =
    Exited (World t fs (j ++ [Opened]))
  /\ serve E GET_visitors (World t (true :: fs) j) = Exited (World t fs (j ++ [Opened]))
  /\ serve E (DELETE_visitors_plate p) (World t (true :: fs) j) =
       Exited (World t fs (j ++ [Opened]))
  /\ serve E (POST_visitors (Some v)) (World t (true :: fs) j) =
       Exited (World t fs (j ++ [Opened])).
Proof.
  intros Hn Hp. apply String.eqb_neq in Hn. apply String.eqb_neq in Hp.
  unfold serve, route, getVisitors, getVisitorsFromDB, removeVisitor, addVisitor.
  rewrite Hn, Hp. unfold bind. rewrite initializeDB_fails.
  repeat split.
Qed.

Lemma connection_failure_stops_process_witness :
  Name piet <> "" /\ Plate piet <> ""
  /\ serve strict (GET_visitors_plate "ABC-123") (World [jordy] (true :: []) []) =
       Exited (World [jordy] [] ([] ++ [Opened]))
  /\ serve strict GET_visitors (World [jordy] (true :: []) []) =
       Exited (World [jordy] [] ([] ++ [Opened]))
  /\ serve strict (DELETE_visitors_plate "ABC-123") (World [jordy] (true :: []) []) =
       Exited (World [jordy] [] ([] ++ [Opened]))
  /\ serve strict (POST_visitors (Some piet)) (World [jordy] (true :: []) []) =
       Exited (World [jordy] [] ([] ++ [Opened])).
Proof.
  assert (Hn : Name piet <> "") by discriminate.
  assert (Hp : Plate piet <> "") by discriminate.
  split; [exact Hn|]. split; [exact Hp|].
  exact (connection_failure_stops_process strict "ABC-123" piet [jordy] [] [] Hn Hp).
Defined.

(** X11: A SELECT the database fails, after the connection was opened, makes
    the handler run its loop on a nil cursor: GET, DELETE and a POST with
    both fields given are answered 500 by the recovery middleware, and the
    table is as it was. *)
Theorem failed_select_answers_500 (E : dialect) (p : string) (v : visitors)
    (t : list visitors) (fs : list bool) (j : list event) :
  Name v <> "" -> Plate v <> "" ->
  (answer (serve E (GET_visitors_plate p) (World t (false :: true :: fs) j)) =
     Some (JSON StatusInternalServerError NoBody)
   /\ table (world_of (serve E (GET_visitors_plate p) (World t (false :: true :: fs) j))) = t)
  /\ (answer (serve E (DELETE_visitors_plate p) (World t (false :: true :: fs) j)) =
        Some (JSON StatusInternalServerError NoBody)
      /\ table (world_of (serve E (DELETE_visitors_plate p)
                            (World t (false :: true :: fs) j))) = t)
  /\ (answer (serve E (POST_visitors (Some v)) (World t (false :: true :: fs) j)) =
        Some (JSON StatusInternalServerError NoBody)
      /\ table (world_of (serve E (POST_visitors (Some v))
                            (World t (false :: true :: fs) j))) = t).
Proof.
  intros Hn Hp. apply String.eqb_neq in Hn. apply String.eqb_neq in Hp.
  unfold serve, route, getVisitors, getVisitorsFromDB, removeVisitor, addVisitor,
    checkPlateAlreadyInDB.
  rewrite Hn, Hp. unfold bind. rewrite initializeDB_answers.
  destruct (p =? "")%string; rewrite !Query_fails; repeat split.
Qed.

Lemma failed_select_answers_500_witness :
  Name piet <> "" /\ Plate piet <> ""
  /\ (answer (serve strict (GET_visitors_plate "ABC-123")
                (World [jordy] (false :: true :: []) [])) =
        Some (JSON StatusInternalServerError NoBody)
      /\ table (world_of (serve strict (GET_visitors_plate "ABC-123")
                            (World [jordy] (false :: true :: []) []))) = [jordy])
  /\ (answer (serve strict (DELETE_visitors_plate "ABC-123")
                (World [jordy] (false :: true :: []) [])) =
        Some (JSON StatusInternalServerError NoBody)
      /\ table (world_of (serve strict (DELETE_visitors_plate "ABC-123")
                            (World [jordy] (false :: true :: []) []))) = [jordy])
  /\ (answer (serve strict (POST_visitors (Some piet))
                (World [jordy] (false :: true :: []) [])) =
        Some (JSON StatusInternalServerError NoBody)
      /\ table (world_of (serve strict (POST_visitors (Some piet))
                            (World [jordy] (false :: true :: []) []))) = [jordy]).
Proof.
  assert (Hn : Name piet <> "") by discriminate.
  assert (Hp : Plate piet <> "") by discriminate.
  split; [exact Hn|]. split; [exact Hp|].
  exact (failed_select_answers_500 strict "ABC-123" piet [jordy] [] [] Hn Hp).
Defined.


(** ** POST and the existence test on plain plates *)

Lemma checkPlateAlreadyInDB_plain_iff_witness :
  sql_plain "ABC-123" = true
  /\ (value (checkPlateAlreadyInDB strict Handle "ABC-123" (World [piet; jordy] [] []))
        = Some true <->
      exists r, In r [piet; jordy] /\ Plate r = "ABC-123").
Proof.
  split; [reflexivity|].
  exact (checkPlateAlreadyInDB_plain_iff strict Handle "ABC-123" [piet; jordy] [] eq_refl).
Defined.

(** X5: When the database answers, a POST with both fields given and a plate
    without quote or backslash is answered 409 and changes nothing when a
    row has that plate, and otherwise is answered 201 with the submitted
    record, which is appended to the table. *)
Theorem post_plain_plate_answers (E : dialect) (v : visitors) (t : list visitors)
    (j : list event) :
  Name v <> "" -> Plate v <> "" -> sql_plain (Plate v) = true ->
  answer (serve E (POST_visitors (Some v)) (World t [] j)) =
    Some (if existsb (plate_is (Plate v)) t
          then JSON StatusConflict (H_message "Plate already in database")
          else JSON StatusCreated (VisitorObject v))
  /\ table (world_of (serve E (POST_visitors (Some v)) (World t [] j))) =
       (if existsb (plate_is (Plate v)) t then t else t ++ [v]).
Proof.
  intros Hn Hp Hplain. unfold serve, route.
  rewrite (addVisitor_plain E v t j Hn Hp Hplain).
  destruct (existsb (plate_is (Plate v)) t); split; reflexivity.
Qed.

Lemma post_plain_plate_answers_witness :
  Name piet <> "" /\ Plate piet <> "" /\ sql_plain (Plate piet) = true
  /\ answer (serve strict (POST_visitors (Some piet)) (World [jordy] [] [])) =
       Some (if existsb (plate_is (Plate piet)) [jordy]
             then JSON StatusConflict (H_message "Plate already in database")
             else JSON StatusCreated (VisitorObject piet))
  /\ table (world_of (serve strict (POST_visitors (Some piet)) (World [jordy] [] []))) =
       (if existsb (plate_is (Plate piet)) [jordy] then [jordy] else [jordy] ++ [piet]).
Proof.
  assert (Hn : Name piet <> "") by discriminate.
  assert (Hp : Plate piet <> "") by discriminate.
  split; [exact Hn|]. split; [exact Hp|]. split; [reflexivity|].
  exact (post_plain_plate_answers strict piet [jordy] [] Hn Hp eq_refl).
Defined.

(** * The console functions *)

Lemma execute_console_scan (E : dialect) (p : string) (t : list visitors) :
  execute_console E (scan_spliced p) [] t =
    select_quoted E (scan_spliced p) (p ++ "'")%string t.
Proof. reflexivity. Qed.

Lemma execute_console_linked (E : dialect) (p : string) (t : list visitors) :
  execute_console E (linked_spliced p) [] t =
    select_quoted E (linked_spliced p) (p ++ "'")%string t.
Proof. reflexivity. Qed.

Lemma select_quoted_plain (E : dialect) (text p : string) (t : list visitors) :
  sql_plain p = true ->
  select_quoted E text (p ++ "'")%string t = Answered (filter (plate_is p) t) t.
Proof.
  intros Hp. unfold select_quoted. now rewrite (read_literal_plain p Hp).
Qed.

Lemma Query_console_calm (E : dialect) (db : DB) (text : string) (args : list string)
    (t : list visitors) (j : list event) :
  Query_console E db text args (World t [] j) =
    match execute_console E text args t with
    | Refused => Returned None (World t [] (j ++ [Sent text args]))
    | Answered rows t' => Returned (Some rows) (World t' [] (j ++ [Sent text args]))
    end.
Proof. reflexivity. Qed.

Lemma checkScannedPlateInDB_plain (E : dialect) (db : DB) (p : string)
    (t : list visitors) (j : list event) :
  sql_plain p = true ->
  checkScannedPlateInDB E db p (World t [] j) =
    Returned (existsb (plate_is p) t) (World t [] (j ++ [Sent (scan_spliced p) []])).
Proof.
  intros Hp. unfold checkScannedPlateInDB, bind.
  rewrite Query_console_calm, execute_console_scan, (select_quoted_plain E _ p t Hp).
  unfold ret. rewrite scan_plate_existsb, existsb_filter_same. reflexivity.
Qed.

Lemma last_of_cons (l : list string) (x d d' : string) :
  last (x :: l) d = last (x :: l) d'.
Proof.
  revert x. induction l as [|y l IH]; intros x; [reflexivity|].
  change (last (x :: y :: l) d) with (last (y :: l) d).
  change (last (x :: y :: l) d') with (last (y :: l) d').
  apply IH.
Qed.

Lemma scan_name_last (rows : list visitors) (name : string) :
  scan_name rows name = last (map Name rows) name.
Proof.
  revert name. induction rows as [|r rest IH]; intros name; [reflexivity|].
  cbn [scan_name map]. rewrite IH.
  destruct rest as [|r' rest]; [reflexivity|].
  cbn [map]. change (last (Name r :: Name r' :: map Name rest) name)
    with (last (Name r' :: map Name rest) name).
  apply last_of_cons.
Qed.

(** X14: When the database answers and the plate holds no quote and no
    backslash, the gate's test returns true exactly when a row has that
    plate: it agrees with the existence test of the HTTP surface. *)
Theorem scanned_plate_test_agrees (E : dialect) (db : DB) (p : string)
    (t : list visitors) (j : list event) :
  sql_plain p = true ->
  (value (checkScannedPlateInDB E db p (World t [] j)) = Some true <->
   exists r, In r t /\ Plate r = p)
  /\ value (checkScannedPlateInDB E db p (World t [] j)) =
       value (checkPlateAlreadyInDB E db p (World t [] j)).
Proof.
  intros Hp.
  rewrite (checkScannedPlateInDB_plain E db p t j Hp),
    (checkPlateAlreadyInDB_plain E db p t j Hp).
  cbn [value]. split; [|reflexivity].
  rewrite <- existsb_plate_is.
  split; [intros H; now injection H | intros ->; reflexivity].
Qed.

Lemma scanned_plate_test_agrees_witness :
  sql_plain "DEF-456" = true
  /\ (value (checkScannedPlateInDB strict Handle "DEF-456" (World [jordy; piet] [] []))
        = Some true <->
      exists r, In r [jordy; piet] /\ Plate r = "DEF-456")
  /\ value (checkScannedPlateInDB strict Handle "DEF-456" (World [jordy; piet] [] [])) =
       value (checkPlateAlreadyInDB strict Handle "DEF-456" (World [jordy; piet] [] [])).
Proof.
  split; [reflexivity|].
  exact (scanned_plate_test_agrees strict Handle "DEF-456" [jordy; piet] [] eq_refl).
Defined.

(** X15: When the database answers and the plate holds no quote and no
    backslash, [getLinkedNameOfPlate] returns the name of the last row
    with that plate, and the empty string when no row has it; the table is
    left as it was. *)
Theorem linked_name_is_last_match (E : dialect) (p : string) (t : list visitors)
    (j : list event) :
  sql_plain p = true ->
  getLinkedNameOfPlate E p (World t [] j) =
    Returned (last (map Name (filter (plate_is p) t)) "")
      (World t [] ((j ++ [Opened]) ++ [Sent (linked_spliced p) []])).
Proof.
  intros Hp. unfold getLinkedNameOfPlate, bind.
  rewrite initializeDB_calm, Query_console_calm, execute_console_linked.
  rewrite (select_quoted_plain E _ p t Hp). unfold ret.
  now rewrite scan_name_last.
Qed.

Lemma linked_name_is_last_match_witness :
  sql_plain "ABC-123" = true
  /\ getLinkedNameOfPlate strict "ABC-123"
       (World [jordy; piet; Build_visitors "Jan" "ABC-123"] [] []) =
     Returned
       (last (map Name (filter (plate_is "ABC-123")
                          [jordy; piet; Build_visitors "Jan" "ABC-123"])) "")
       (World [jordy; piet; Build_visitors "Jan" "ABC-123"] []
          (([] ++ [Opened]) ++ [Sent (linked_spliced "ABC-123") []])).
Proof.
  split; [reflexivity|].
  exact (linked_name_is_last_match strict "ABC-123"
           [jordy; piet; Build_visitors "Jan" "ABC-123"] [] eq_refl).
Defined.

Lemma debug_writes (Debug : bool) (s : string) (w : world) :
  debug Debug s w =
    ((if Debug then [Log_line ("DEBUG: " ++ s)%string] else []), Returned tt w).
Proof. destruct Debug; reflexivity. Qed.

(** The logged test ends as [checkScannedPlateInDB] does, in every world. *)
Lemma scan_plate_logged_outcome (Debug : bool) (p : string) (rows : list visitors)
    (w : world) :
  snd (scan_plate_logged Debug p rows w) = Returned (scan_plate p rows) w.
Proof.
  induction rows as [|r rest IH]; [reflexivity|].
  cbn [scan_plate_logged scan_plate]. unfold pbind. rewrite debug_writes.
  destruct (Plate r =? p)%string; [reflexivity|].
  destruct (scan_plate_logged Debug p rest w) as [o res]. exact IH.
Qed.

Lemma checkScannedPlateInDB_logged_outcome (Debug : bool) (E : dialect) (db : DB)
    (p : string) (w : world) :
  snd (checkScannedPlateInDB_logged Debug E db p w) = checkScannedPlateInDB E db p w.
Proof.
  unfold checkScannedPlateInDB_logged, checkScannedPlateInDB, pbind, bind, quiet.
  rewrite debug_writes.
  destruct (Query_console E db (scan_spliced p) [] w) as [[rs|] w' | w' | w'];
    try reflexivity.
  pose proof (scan_plate_logged_outcome Debug p rs w') as H.
  destruct (scan_plate_logged Debug p rs w') as [o res]. exact H.
Qed.

Lemma scan_plate_logged_matching (Debug : bool) (p : string) (rows : list visitors)
    (w : world) :
  (forall r, In r rows -> Plate r = p) ->
  scan_plate_logged Debug p rows w =
    (match rows with
     | [] => []
     | r :: _ =>
         if Debug
         then [Log_line ("DEBUG: Returned data from query: " ++ Name r ++ " " ++ Plate r)%string]
         else []
     end,
     Returned (match rows with [] => false | _ :: _ => true end) w).
Proof.
  intros H. destruct rows as [|r rest]; [reflexivity|].
  cbn [scan_plate_logged]. unfold pbind. rewrite debug_writes.
  rewrite (H r (or_introl eq_refl)), String.eqb_refl.
  unfold quiet, ret. now rewrite app_nil_r.
Qed.

Lemma checkScannedPlateInDB_logged_plain (Debug : bool) (E : dialect) (db : DB)
    (p : string) (t : list visitors) (j : list event) :
  sql_plain p = true ->
  checkScannedPlateInDB_logged Debug E db p (World t [] j) =
    ((if Debug then [Log_line ("DEBUG: Entered plate: " ++ p)%string] else [])
       ++ match filter (plate_is p) t with
          | [] => []
          | r :: _ =>
              if Debug
              then [Log_line ("DEBUG: Returned data from query: "
                                ++ Name r ++ " " ++ Plate r)%string]
              else []
          end,
     Returned (match filter (plate_is p) t with [] => false | _ :: _ => true end)
       (World t [] (j ++ [Sent (scan_spliced p) []]))).
Proof.
  intros Hp. unfold checkScannedPlateInDB_logged, pbind, quiet.
  rewrite debug_writes, Query_console_calm, execute_console_scan.
  rewrite (select_quoted_plain E _ p t Hp), scan_plate_logged_matching.
  - reflexivity.
  - intros r Hr. apply filter_In in Hr as [_ Hr].
    unfold plate_is in Hr. now apply String.eqb_eq.
Qed.

Lemma firstMessage_writes (hour : nat) (w : world) :
  firstMessage hour w =
    ([if (7 <=? hour) && (hour <? 23) then
        Stderr_line
          ((if (hour <? 12)%nat then "Goedemorgen!"
            else if (hour <? 18)%nat then "Goedemiddag!" else "Goedenavond!")
             ++ " Welkom bij Fonteyn Vakantieparken")%string
      else Stdout_line closed_message],
     Returned tt w).
Proof.
  unfold firstMessage, welcomeMessage, write.
  destruct (7 <=? hour) eqn:H7; cbn [andb].
  - destruct (hour <? 12) eqn:H12; [ | cbn [andb] ].
    + assert (H23 : (hour <? 23) = true)
        by (apply Nat.ltb_lt; apply Nat.ltb_lt in H12; lia).
      rewrite H23. reflexivity.
    + destruct (12 <=? hour) eqn:H12'.
      * cbn [andb]. destruct (hour <? 18) eqn:H18.
        -- assert (H23 : (hour <? 23) = true)
             by (apply Nat.ltb_lt; apply Nat.ltb_lt in H18; lia).
           rewrite H23. reflexivity.
        -- assert (H18' : (18 <=? hour) = true)
             by (apply Nat.leb_le; apply Nat.ltb_ge in H18; lia).
           rewrite H18'. cbn [andb]. destruct (hour <? 23); reflexivity.
      * apply Nat.ltb_ge in H12. apply Nat.leb_gt in H12'. lia.
  - assert (H12 : (12 <=? hour) = false)
      by (apply Nat.leb_gt; apply Nat.leb_gt in H7; lia).
    assert (H18 : (18 <=? hour) = false)
      by (apply Nat.leb_gt; apply Nat.leb_gt in H7; lia).
    rewrite H12, H18. reflexivity.
Qed.

(** X16: When the database answers, every row holds text and the typed
    plate holds no quote and no backslash, [scanPlate] writes, in this
    order: the prompt; with the debug flag set, the log line
    [DEBUG: Entered plate: ...]; then, for a plate no row has,
    [Kenteken niet toegestaan] on standard output and the log line
    [INFO: Kenteken ... is niet toegelaten]; for a plate in the table, with
    the debug flag set the log line of the first row with that plate, the
    log line [INFO: Kenteken ... is doorgelaten], and last the greeting of
    the hour on standard error from 7 to 22 o'clock (morning before 12,
    afternoon before 18, evening after) or the closed message on standard
    output in the other hours.  It writes nothing else, returns, and
    leaves the table as it was. *)
Theorem scan_plate_writes (Debug : bool) (E : dialect) (hour : nat) (p : string)
    (t : list visitors) (j : list event) :
  sql_plain p = true ->
  scanPlate Debug E hour p (World t [] j) =
    ([Stdout_text "Voer uw kenteken in: "]
       ++ (if Debug then [Log_line ("DEBUG: Entered plate: " ++ p)%string] else [])
       ++ match filter (plate_is p) t with
          | [] =>
              [Stdout_line "Kenteken niet toegestaan";
               Log_line ("INFO: Kenteken " ++ p ++ " is niet toegelaten")%string]
          | r :: _ =>
              (if Debug
               then [Log_line ("DEBUG: Returned data from query: "
                                 ++ Name r ++ " " ++ Plate r)%string]
               else [])
                ++ [Log_line ("INFO: Kenteken " ++ p ++ " is doorgelaten")%string;
                    if (7 <=? hour) && (hour <? 23) then
                      Stderr_line
                        ((if (hour <? 12)%nat then "Goedemorgen!"
                          else if (hour <? 18)%nat then "Goedemiddag!"
                               else "Goedenavond!")
                           ++ " Welkom bij Fonteyn Vakantieparken")%string
                    else Stdout_line closed_message]
          end,
     Returned tt (World t [] ((j ++ [Opened]) ++ [Sent (scan_spliced p) []]))).
Proof.
  intros Hp. unfold scanPlate.
  unfold pbind at 1. unfold write at 1.
  unfold pbind at 1. unfold quiet at 1. rewrite initializeDB_calm.
  unfold pbind at 1. rewrite (checkScannedPlateInDB_logged_plain Debug E Handle p t _ Hp).
  destruct (filter (plate_is p) t) as [|r rest]; cbn [negb].
  - unfold pbind, write. rewrite app_nil_r. reflexivity.
  - unfold pbind, write. rewrite firstMessage_writes.
    cbn [app]. rewrite <- !app_assoc. reflexivity.
Qed.

Lemma scan_plate_writes_witness :
  sql_plain "ABC-123" = true
  /\ scanPlate true strict 23 "ABC-123" (World [piet; jordy] [] []) =
     ([Stdout_text "Voer uw kenteken in: "]
        ++ (if true then [Log_line ("DEBUG: Entered plate: " ++ "ABC-123")%string] else [])
        ++ match filter (plate_is "ABC-123") [piet; jordy] with
           | [] =>
               [Stdout_line "Kenteken niet toegestaan";
                Log_line ("INFO: Kenteken " ++ "ABC-123" ++ " is niet toegelaten")%string]
           | r :: _ =>
               (if true
                then [Log_line ("DEBUG: Returned data from query: "
                                  ++ Name r ++ " " ++ Plate r)%string]
                else [])
                 ++ [Log_line ("INFO: Kenteken " ++ "ABC-123" ++ " is doorgelaten")%string;
                     if (7 <=? 23) && (23 <? 23) then
                       Stderr_line
                         ((if (23 <? 12)%nat then "Goedemorgen!"
                           else if (23 <? 18)%nat then "Goedemiddag!"
                                else "Goedenavond!")
                            ++ " Welkom bij Fonteyn Vakantieparken")%string
                     else Stdout_line closed_message]
           end,
      Returned tt (World [piet; jordy] []
                     (([] ++ [Opened]) ++ [Sent (scan_spliced "ABC-123") []]))).
Proof.
  split; [reflexivity|].
  exact (scan_plate_writes true strict 23 "ABC-123" [piet; jordy] [] eq_refl).
Defined.
